(** * Reward functions of DRL4AMM (src/DRL4AMM/rewards/RewardFunctions.py)

    A shallow embedding of the four reward functions [PnL], [CJ_criterion],
    [TerminalExponentialUtility] and [InventoryAdjustedPnL], and the
    properties their specification states about them.

    Numbers.  The source computes on Python/numpy floats.  The model reads
    every float as the real number it stands for and every float operation as
    the exact real operation: rounding, overflow and signed zeros are outside
    the model.  An operation whose IEEE result is [inf] or [nan] on finite
    arguments (a zero base raised to a negative power, a negative base raised
    to a fractional power) has no real value; it yields [NotReal].

    Observations.  An observation is a numpy array read by position; the model
    is a [list R], and a subscript past the end raises [IndexError] as numpy
    does. *)

From Stdlib Require Import Reals Lra List Bool ZArith.
Import ListNotations.

Open Scope R_scope.

(** ** Outcomes of a Python call *)

(** The exceptions that matter for this file. *)
Inductive exn : Type :=
| IndexError        (* a subscript out of range *)
| ValidationError.  (* what pydantic raises for a value outside a constrained type *)

Inductive outcome (A : Type) : Type :=
| Ret (a : A)        (* the call returns [a] *)
| Raise (e : exn)    (* the call raises [e] *)
| NotReal.           (* the call returns a float that is [inf] or [nan] *)

Arguments Ret {A} a.
Arguments Raise {A} e.
Arguments NotReal {A}.

Definition bind {A B : Type} (m : outcome A) (k : A -> outcome B) : outcome B :=
  match m with
  | Ret a => k a
  | Raise e => Raise e
  | NotReal => NotReal
  end.

Notation "x <- m ;; k" := (bind m (fun x => k))
  (at level 61, m at next level, right associativity).

(** ** Observations *)

(** observation space is (stock_price, cash, inventory, time) *)
Definition observation : Type := list R.

(** [o[i]] for a non-negative constant [i]. *)
Definition getitem (o : observation) (i : nat) : outcome R :=
  match nth_error o i with
  | Some x => Ret x
  | None => Raise IndexError
  end.

Notation "o .[ i ]" := (getitem o i)
  (at level 1, left associativity, format "o .[ i ]").

(** A well-formed observation has exactly the four fields. *)
Definition well_formed (o : observation) : Prop := length o = 4%nat.

(** The fields of a well-formed observation, for use in statements. *)
Definition field (o : observation) (i : nat) : R := nth i o 0.

Definition stock_price (o : observation) : R := field o 0.
Definition cash (o : observation) : R := field o 1.
Definition inventory (o : observation) : R := field o 2.
Definition elapsed_time (o : observation) : R := field o 3.

(** Cash plus price times inventory, as a number. *)
Definition mark_to_market (o : observation) : R :=
  cash o + stock_price o * inventory o.

(** ** Float operations *)

(** A Python [bool] used as a number. *)
Definition bool_to_R (b : bool) : R := if b then 1 else 0.

(** [x ** y] on numpy floats, [y] a float.  [x ** 0] is [1] for every [x];
    [0 ** y] is [0] for [y > 0] and [inf] for [y < 0]; a negative base is
    raised to an integral power by parity and gives [nan] otherwise.
    ([Rpower x y] alone is [exp (y * ln x)], which is [1] at [x = 0].) *)
Definition float_pow (x y : R) : outcome R :=
  if Req_dec_T y 0 then Ret 1
  else if Rlt_dec 0 x then Ret (Rpower x y)
  else if Req_dec_T x 0 then (if Rlt_dec 0 y then Ret 0 else NotReal)
  else if Req_dec_T (frac_part y) 0
       then Ret ((if Z.even (Int_part y) then 1 else -1) * Rpower (- x) y)
       else NotReal.

(** ** The reward functions *)

Section Rewards.

(** [Action] comes from DRL4AMM.gym.models; no reward function looks inside. *)
Variable Action : Type.

(** class RewardFunction(metaclass=abc.ABCMeta): the one abstract method. *)
Class RewardFunction (T : Type) : Type :=
  calculate : T -> observation -> Action -> observation -> bool -> outcome R.

(** The expression [state[1] + state[0] * state[2]], which the source writes
    out at each use; the subscripts are evaluated left to right. *)
Definition market_value (state : observation) : outcome R :=
  s1 <- state.[1] ;;
  s0 <- state.[0] ;;
  s2 <- state.[2] ;;
  Ret (s1 + s0 * s2).

(** *** PnL *)

(** [PnL] has no fields. *)
Inductive PnL : Type := PnL_init.

Definition PnL_calculate (self : PnL) (current_state : observation)
    (action : Action) (next_state : observation) (is_terminal_step : bool)
    : outcome R :=
  current_market_value <- market_value current_state ;;
  next_market_value <- market_value next_state ;;
  Ret (next_market_value - current_market_value).

#[export] Instance PnL_RewardFunction : RewardFunction PnL := PnL_calculate.

(** *** CJ_criterion *)

Inductive CJ_criterion : Type := CJ_criterion_init.

(** The defaults of the two keyword parameters, both [0.01]. *)
Definition CJ_default_phi : R := 1 / 100.
Definition CJ_default_terminal_penalty : R := 1 / 100.

Definition CJ_criterion_calculate (self : CJ_criterion)
    (current_state : observation) (action : Action) (next_state : observation)
    (is_terminal_step : bool) (phi terminal_penalty : R) : outcome R :=
  current_market_value <- market_value current_state ;;
  next_market_value <- market_value next_state ;;
  n3 <- next_state.[3] ;;
  c3 <- current_state.[3] ;;
  let dt := n3 - c3 in
  if is_terminal_step then
    n2 <- next_state.[2] ;;
    c2 <- current_state.[2] ;;
    n2' <- next_state.[2] ;;
    c2' <- current_state.[2] ;;
    Ret (next_market_value - current_market_value
         - dt * phi * (n2 - c2) ^ 2
         - terminal_penalty * (n2' - c2') ^ 2)
  else
    n2 <- next_state.[2] ;;
    c2 <- current_state.[2] ;;
    Ret (next_market_value - current_market_value - dt * phi * (n2 - c2) ^ 2).

(** Through the interface the keyword parameters keep their defaults. *)
#[export] Instance CJ_criterion_RewardFunction : RewardFunction CJ_criterion :=
  fun self current_state action next_state is_terminal_step =>
    CJ_criterion_calculate self current_state action next_state
      is_terminal_step CJ_default_phi CJ_default_terminal_penalty.

(** *** TerminalExponentialUtility *)

Record TerminalExponentialUtility : Type :=
  { risk_aversion : R }.

(** [__init__]: one assignment; the annotation [NonNegativeFloat] is not
    checked by anything. *)
Definition TerminalExponentialUtility_init (risk_aversion : R)
    : outcome TerminalExponentialUtility :=
  Ret {| risk_aversion := risk_aversion |}.

Definition TerminalExponentialUtility_default_risk_aversion : R := 1 / 10.

Definition TerminalExponentialUtility_calculate
    (self : TerminalExponentialUtility) (current_state : observation)
    (action : Action) (next_state : observation) (is_terminal_step : bool)
    : outcome R :=
  if is_terminal_step then
    wealth <- market_value next_state ;;
    Ret (- exp (- risk_aversion self * wealth))
  else Ret 0.

#[export] Instance TerminalExponentialUtility_RewardFunction
  : RewardFunction TerminalExponentialUtility :=
  TerminalExponentialUtility_calculate.

(** *** InventoryAdjustedPnL *)

Record InventoryAdjustedPnL : Type :=
  { per_step_inventory_aversion : R;
    terminal_inventory_aversion : R;
    pnl_reward : PnL;
    inventory_exponent : R;
    step_size : R }.

(** [__init__]: five assignments; the annotations [NonNegativeFloat] and
    [PositiveFloat] are not checked by anything. *)
Definition InventoryAdjustedPnL_init
    (per_step_inventory_aversion terminal_inventory_aversion
     inventory_exponent step_size : R) : outcome InventoryAdjustedPnL :=
  Ret {| per_step_inventory_aversion := per_step_inventory_aversion;
         terminal_inventory_aversion := terminal_inventory_aversion;
         pnl_reward := PnL_init;
         inventory_exponent := inventory_exponent;
         step_size := step_size |}.

Definition InventoryAdjustedPnL_default : outcome InventoryAdjustedPnL :=
  InventoryAdjustedPnL_init (1 / 100) 0 2 (1 / 200).

Definition InventoryAdjustedPnL_calculate (self : InventoryAdjustedPnL)
    (current_state : observation) (action : Action)
    (next_state : observation) (is_terminal_step : bool) : outcome R :=
  let inventory_aversion :=
    bool_to_R is_terminal_step * terminal_inventory_aversion self
    + (1 - bool_to_R is_terminal_step) * step_size self
      * per_step_inventory_aversion self in
  pnl <- PnL_calculate (pnl_reward self) current_state action next_state false ;;
  n2 <- next_state.[2] ;;
  p <- float_pow (Rabs n2) (inventory_exponent self) ;;
  Ret (pnl - inventory_aversion * p).

#[export] Instance InventoryAdjustedPnL_RewardFunction
  : RewardFunction InventoryAdjustedPnL :=
  InventoryAdjustedPnL_calculate.

End Rewards.

Arguments calculate {Action T RewardFunction} _ _ _ _ _.
Arguments PnL_calculate {Action} self current_state action next_state
  is_terminal_step.
Arguments CJ_criterion_calculate {Action} self current_state action
  next_state is_terminal_step phi terminal_penalty.
Arguments TerminalExponentialUtility_calculate {Action} self current_state
  action next_state is_terminal_step.
Arguments InventoryAdjustedPnL_calculate {Action} self current_state action
  next_state is_terminal_step.

(** ** Concrete transitions *)

(** The transition the specification evaluates, in an environment whose
    actions are numbered. *)
Definition scenario_current : observation := [100; 0; 0; 0].
Definition scenario_next : observation := [101; 0; 1; 1].
Definition scenario_action : nat := 0%nat.

Definition default_InventoryAdjustedPnL : InventoryAdjustedPnL :=
  {| per_step_inventory_aversion := 1 / 100;
     terminal_inventory_aversion := 0;
     pnl_reward := PnL_init;
     inventory_exponent := 2;
     step_size := 1 / 200 |}.

(** An instance with both aversions zero. *)
Definition zero_aversion_InventoryAdjustedPnL : InventoryAdjustedPnL :=
  {| per_step_inventory_aversion := 0;
     terminal_inventory_aversion := 0;
     pnl_reward := PnL_init;
     inventory_exponent := 2;
     step_size := 1 / 200 |}.

(** The step after [scenario_next]: the unit is sold at 101. *)
Definition scenario_last : observation := [102; 101; 0; 2].

(** An instance whose exponent is negative; the constructor builds it. *)
Definition negative_exponent_InventoryAdjustedPnL : InventoryAdjustedPnL :=
  {| per_step_inventory_aversion := 1 / 100;
     terminal_inventory_aversion := 0;
     pnl_reward := PnL_init;
     inventory_exponent := -1;
     step_size := 1 / 200 |}.

(** The default instance of [TerminalExponentialUtility]. *)
Definition default_TerminalExponentialUtility : TerminalExponentialUtility :=
  {| risk_aversion := TerminalExponentialUtility_default_risk_aversion |}.

(** An instance that is indifferent to risk. *)
Definition risk_neutral : TerminalExponentialUtility :=
  {| risk_aversion := 0 |}.

(** * Properties *)

Section RewardProperties.

Variable Action : Type.

(** ** Auxiliary facts *)

Lemma well_formed_inv (o : observation) :
  well_formed o -> exists p c q t, o = [p; c; q; t].
Proof.
  unfold well_formed; intros H.
  destruct o as [|p [|c [|q [|t [|x o]]]]]; simpl in H; try discriminate.
  now exists p, c, q, t.
Qed.

(** Name the four fields of every observation known to be well formed. *)
Ltac name_fields :=
  repeat match goal with
         | H : well_formed ?o |- _ =>
             let p := fresh "p" in
             let c := fresh "c" in
             let q := fresh "q" in
             let t := fresh "t" in
             apply well_formed_inv in H;
             destruct H as (p & c & q & t & H); subst o
         end.

Lemma market_value_wf (o : observation) :
  well_formed o -> market_value o = Ret (mark_to_market o).
Proof. intros H; name_fields; reflexivity. Qed.

Lemma PnL_calculate_wf (self : PnL) (current next : observation)
    (a : Action) (flag : bool) :
  well_formed current -> well_formed next ->
  PnL_calculate self current a next flag
  = Ret (mark_to_market next - mark_to_market current).
Proof.
  intros Hc Hn; unfold PnL_calculate.
  now rewrite (market_value_wf _ Hc), (market_value_wf _ Hn).
Qed.

Lemma TerminalExponentialUtility_terminal_wf
    (self : TerminalExponentialUtility) (current next : observation)
    (a : Action) :
  well_formed next ->
  TerminalExponentialUtility_calculate self current a next true
  = Ret (- exp (- risk_aversion self * mark_to_market next)).
Proof.
  intros Hn; unfold TerminalExponentialUtility_calculate.
  now rewrite (market_value_wf _ Hn).
Qed.

(** The boolean used as a weight selects one of the two coefficients. *)
Lemma blend_select (b : bool) (terminal per_step size : R) :
  bool_to_R b * terminal + (1 - bool_to_R b) * size * per_step
  = if b then terminal else size * per_step.
Proof. destruct b; unfold bool_to_R; ring. Qed.

(** A positive power of a non-negative base is a non-negative real. *)
Lemma float_pow_pos_exponent (x y : R) :
  0 <= x -> 0 < y -> exists p, float_pow x y = Ret p /\ 0 <= p.
Proof.
  intros Hx Hy; unfold float_pow.
  destruct (Req_dec_T y 0) as [E|_]; [lra|].
  destruct (Rlt_dec 0 x) as [Hpos|Hnpos].
  - exists (Rpower x y); split; [reflexivity|].
    unfold Rpower; left; apply exp_pos.
  - destruct (Req_dec_T x 0) as [_|Hne]; [|lra].
    destruct (Rlt_dec 0 y) as [_|Hn]; [|lra].
    exists 0; split; [reflexivity|lra].
Qed.

(** The two cases of the power of an absolute value. *)
Lemma float_pow_abs_nonzero (x y : R) :
  x <> 0 -> y <> 0 -> float_pow (Rabs x) y = Ret (Rpower (Rabs x) y).
Proof.
  intros Hx Hy; unfold float_pow.
  destruct (Req_dec_T y 0) as [E|_]; [contradiction|].
  destruct (Rlt_dec 0 (Rabs x)) as [_|Hn]; [reflexivity|].
  exfalso; apply Hn, Rabs_pos_lt, Hx.
Qed.

Lemma float_pow_zero_pos (y : R) : 0 < y -> float_pow 0 y = Ret 0.
Proof.
  intros Hy; unfold float_pow.
  destruct (Req_dec_T y 0); [lra|].
  destruct (Rlt_dec 0 0); [lra|].
  destruct (Req_dec_T 0 0); [|lra].
  destruct (Rlt_dec 0 y); [reflexivity|lra].
Qed.

Lemma getitem_inventory_wf (o : observation) :
  well_formed o -> o.[2] = Ret (inventory o).
Proof. intros H; name_fields; reflexivity. Qed.

(** ** PnL *)

(** C1. On well-formed observations [PnL.calculate] returns
    [(next[1] + next[0]*next[2]) - (current[1] + current[0]*current[2])],
    and the result is the same for every action and terminal flag. *)
Theorem PnL_calculate_spec (self : PnL) (current next : observation)
    (a : Action) (flag : bool) :
  well_formed current -> well_formed next ->
  PnL_calculate self current a next flag
  = Ret ((field next 1 + field next 0 * field next 2)
         - (field current 1 + field current 0 * field current 2))
  /\ forall (a' : Action) (flag' : bool),
       PnL_calculate self current a' next flag'
       = PnL_calculate self current a next flag.
Proof.
  intros Hc Hn; split.
  - apply (PnL_calculate_wf self current next a flag Hc Hn).
  - intros a' flag'; reflexivity.
Qed.

(** C5. [PnL.calculate] is zero on identical observations and changes sign
    when its two observations are swapped. *)
Theorem PnL_calculate_antisymmetric (self : PnL) (o1 o2 : observation)
    (a a' : Action) (flag flag' : bool) :
  well_formed o1 -> well_formed o2 ->
  PnL_calculate self o1 a o1 flag = Ret 0
  /\ exists r, PnL_calculate self o2 a' o1 flag' = Ret r
               /\ PnL_calculate self o1 a o2 flag = Ret (- r).
Proof.
  intros H1 H2; split.
  - rewrite (PnL_calculate_wf self o1 o1 a flag H1 H1); f_equal; ring.
  - exists (mark_to_market o1 - mark_to_market o2); split.
    + apply PnL_calculate_wf; assumption.
    + rewrite (PnL_calculate_wf self o1 o2 a flag H1 H2); f_equal; ring.
Qed.

(** ** CJ_criterion *)

(** C2. With [dt = next[3] - current[3]] and [d_inv = next[2] - current[2]],
    [CJ_criterion.calculate] returns [PnL - dt*phi*d_inv^2] on a non-terminal
    step and [PnL - dt*phi*d_inv^2 - terminal_penalty*d_inv^2] on a terminal
    one, [PnL] being the mark-to-market difference
    [(next[1] + next[0]*next[2]) - (current[1] + current[0]*current[2])],
    which is also what [PnL.calculate] returns on the same transition. *)
Theorem CJ_criterion_calculate_spec (self : CJ_criterion)
    (current next : observation) (a : Action) (phi terminal_penalty : R) :
  well_formed current -> well_formed next ->
  let pnl := (field next 1 + field next 0 * field next 2)
             - (field current 1 + field current 0 * field current 2) in
  let dt := field next 3 - field current 3 in
  let d_inv := field next 2 - field current 2 in
  PnL_calculate PnL_init current a next false = Ret pnl
  /\ CJ_criterion_calculate self current a next false phi terminal_penalty
     = Ret (pnl - dt * phi * d_inv ^ 2)
  /\ CJ_criterion_calculate self current a next true phi terminal_penalty
     = Ret (pnl - dt * phi * d_inv ^ 2 - terminal_penalty * d_inv ^ 2).
Proof.
  intros Hc Hn pnl dt d_inv; split.
  - apply (PnL_calculate_wf PnL_init current next a false Hc Hn).
  - unfold CJ_criterion_calculate.
    rewrite (market_value_wf _ Hc), (market_value_wf _ Hn).
    subst pnl dt d_inv; name_fields; split; reflexivity.
Qed.

(** ** TerminalExponentialUtility *)

(** C3. An instance built with [risk_aversion] returns [0] on a non-terminal
    step and [-exp(-risk_aversion * (next[1] + next[0]*next[2]))] on a
    terminal one. *)
Theorem TerminalExponentialUtility_calculate_spec (ra : R)
    (self : TerminalExponentialUtility) (current next : observation)
    (a : Action) :
  TerminalExponentialUtility_init ra = Ret self ->
  well_formed next ->
  TerminalExponentialUtility_calculate self current a next false = Ret 0
  /\ TerminalExponentialUtility_calculate self current a next true
     = Ret (- exp (- ra * (field next 1 + field next 0 * field next 2))).
Proof.
  intros Hinit Hn; injection Hinit as <-; split.
  - reflexivity.
  - rewrite (TerminalExponentialUtility_terminal_wf _ current next a Hn).
    reflexivity.
Qed.

(** C10. [TerminalExponentialUtility.calculate] does not read the current
    observation: two calls that differ only there give the same outcome. *)
Theorem TerminalExponentialUtility_ignores_current
    (self : TerminalExponentialUtility) (c1 c2 next : observation)
    (a1 a2 : Action) (flag : bool) :
  TerminalExponentialUtility_calculate self c1 a1 next flag
  = TerminalExponentialUtility_calculate self c2 a2 next flag.
Proof.
  unfold TerminalExponentialUtility_calculate; destruct flag.
  - (* terminal: only [next] is subscripted *)
    destruct (market_value next); reflexivity.
  - (* non-terminal: the constant 0 *)
    reflexivity.
Qed.

(** The shape of [w |-> - exp (- r * w)]. *)

Lemma neg_exp_negative (x : R) : - exp x < 0.
Proof. pose proof (exp_pos x); lra. Qed.

Lemma exp_monotone (x y : R) : x <= y -> exp x <= exp y.
Proof.
  intros [Hlt | ->]; [left; now apply exp_increasing | right; reflexivity].
Qed.

Lemma neg_exp_monotone (r w1 w2 : R) :
  0 <= r -> w1 <= w2 -> - exp (- r * w1) <= - exp (- r * w2).
Proof.
  intros Hr Hw.
  assert (H : exp (- r * w2) <= exp (- r * w1)) by (apply exp_monotone; nra).
  lra.
Qed.

Lemma neg_exp_vanishes (r eps : R) :
  0 < r -> 0 < eps ->
  exists W, forall w, W < w -> Rabs (- exp (- r * w)) < eps.
Proof.
  intros Hr Heps; exists (/ (r * eps)); intros w Hw.
  assert (Hre : 0 < r * eps) by nra.
  assert (Hinv : 0 < / (r * eps)) by now apply Rinv_0_lt_compat.
  assert (Hx : / eps < r * w).
  { replace (/ eps) with (r * / (r * eps)) by (field; lra).
    apply Rmult_lt_compat_l; assumption. }
  assert (Hie : 0 < / eps) by now apply Rinv_0_lt_compat.
  rewrite Rabs_Ropp, Rabs_pos_eq by (left; apply exp_pos).
  replace (- r * w) with (- (r * w)) by ring.
  rewrite exp_Ropp.
  pose proof (exp_ineq1_le (r * w)) as Hexp.
  assert (Hbig : / eps < exp (r * w)) by lra.
  replace eps with (/ / eps) by (field; lra).
  apply Rinv_lt_contravar; [|assumption].
  apply Rmult_lt_0_compat; [assumption | apply exp_pos].
Qed.

Lemma neg_exp_diverges (r M : R) :
  0 < r -> exists W, forall w, w < W -> - exp (- r * w) < M.
Proof.
  intros Hr; exists (- Rabs M / r); intros w Hw.
  assert (Hx : Rabs M < - r * w).
  { replace (Rabs M) with (- r * (- Rabs M / r)) by (field; lra).
    apply Rmult_lt_gt_compat_neg_l; lra. }
  pose proof (exp_ineq1_le (- r * w)) as Hexp.
  pose proof (Rle_abs (- M)) as Habs; rewrite Rabs_Ropp in Habs.
  lra.
Qed.

(** C6, as the code has it.  On a terminal step the reward is never
    positive and does not decrease as the terminal wealth
    [next[1] + next[0]*next[2]] grows, for every non-negative
    [risk_aversion]; when [risk_aversion] is strictly positive it comes
    within every distance of [0] as the wealth grows without bound and falls
    below every bound as the wealth decreases without bound.  (Over the
    reals the reward is even strictly negative; the statement keeps to what
    survives the rounding of [exp], which reaches [-0.0].) *)
Theorem TerminalExponentialUtility_terminal_shape
    (self : TerminalExponentialUtility) (current : observation) (a : Action) :
  0 <= risk_aversion self ->
  let reward next :=
    TerminalExponentialUtility_calculate self current a next true in
  (forall next, well_formed next -> exists r, reward next = Ret r /\ r <= 0)
  /\ (forall next1 next2, well_formed next1 -> well_formed next2 ->
        mark_to_market next1 <= mark_to_market next2 ->
        exists r1 r2,
          reward next1 = Ret r1 /\ reward next2 = Ret r2 /\ r1 <= r2)
  /\ (0 < risk_aversion self ->
      (forall eps, 0 < eps -> exists W, forall next,
          well_formed next -> W < mark_to_market next ->
          exists r, reward next = Ret r /\ Rabs r < eps)
      /\ (forall M, exists W, forall next,
          well_formed next -> mark_to_market next < W ->
          exists r, reward next = Ret r /\ r < M)).
Proof.
  intros Hra reward; subst reward; cbv beta.
  split; [|split; [|intros Hpos; split]].
  - intros next Hn; eexists; split.
    + apply TerminalExponentialUtility_terminal_wf; assumption.
    + left; apply neg_exp_negative.
  - intros next1 next2 H1 H2 Hle; do 2 eexists; split; [|split].
    + apply TerminalExponentialUtility_terminal_wf; assumption.
    + apply TerminalExponentialUtility_terminal_wf; assumption.
    + apply neg_exp_monotone; assumption.
  - intros eps Heps.
    destruct (neg_exp_vanishes (risk_aversion self) eps Hpos Heps) as [W HW].
    exists W; intros next Hn Hw; eexists; split.
    + apply TerminalExponentialUtility_terminal_wf; assumption.
    + apply HW; assumption.
  - intros M.
    destruct (neg_exp_diverges (risk_aversion self) M Hpos) as [W HW].
    exists W; intros next Hn Hw; eexists; split.
    + apply TerminalExponentialUtility_terminal_wf; assumption.
    + apply HW; assumption.
Qed.

(** ** InventoryAdjustedPnL *)

(** C4. [InventoryAdjustedPnL.calculate] returns
    [PnL - inventory_aversion * |next[2]| ** inventory_exponent], where [PnL]
    is the mark-to-market difference of the transition and
    [inventory_aversion] is [terminal_inventory_aversion] on a terminal step
    and [step_size * per_step_inventory_aversion] otherwise.  The exponent is
    positive, as its type [PositiveFloat] says, so the power is the real
    power [Rpower] of [|next[2]|] when [next[2]] is not zero, and [0] when it
    is. *)
Theorem InventoryAdjustedPnL_calculate_spec (self : InventoryAdjustedPnL)
    (current next : observation) (a : Action) (flag : bool) :
  well_formed current -> well_formed next ->
  0 < inventory_exponent self ->
  let pnl := (field next 1 + field next 0 * field next 2)
             - (field current 1 + field current 0 * field current 2) in
  let inventory_aversion :=
    if flag then terminal_inventory_aversion self
    else step_size self * per_step_inventory_aversion self in
  PnL_calculate (pnl_reward self) current a next false = Ret pnl
  /\ (field next 2 <> 0 ->
      InventoryAdjustedPnL_calculate self current a next flag
      = Ret (pnl - inventory_aversion
                   * Rpower (Rabs (field next 2)) (inventory_exponent self)))
  /\ (field next 2 = 0 ->
      InventoryAdjustedPnL_calculate self current a next flag
      = Ret (pnl - inventory_aversion * 0)).
Proof.
  intros Hc Hn He pnl inventory_aversion.
  assert (Hpnl : PnL_calculate (pnl_reward self) current a next false
                 = Ret pnl)
    by apply (PnL_calculate_wf (pnl_reward self) current next a false Hc Hn).
  assert (Hcalc : forall p,
             float_pow (Rabs (field next 2)) (inventory_exponent self) = Ret p ->
             InventoryAdjustedPnL_calculate self current a next flag
             = Ret (pnl - inventory_aversion * p)).
  { intros p Hp; unfold InventoryAdjustedPnL_calculate.
    rewrite Hpnl, (getitem_inventory_wf _ Hn); cbn [bind].
    unfold inventory; rewrite Hp; cbn [bind].
    rewrite blend_select; reflexivity. }
  split; [exact Hpnl|]; split; intros Hq; apply Hcalc.
  - apply float_pow_abs_nonzero; [assumption | lra].
  - rewrite Hq, Rabs_R0; apply float_pow_zero_pos; assumption.
Qed.

(** C7. With both aversions zero [InventoryAdjustedPnL.calculate] is
    [PnL.calculate], on every pair of observations, every action and both
    values of the flag.  The exponent is positive, as its type says. *)
Theorem InventoryAdjustedPnL_zero_aversion (self : InventoryAdjustedPnL)
    (current next : observation) (a : Action) (flag flag' : bool) :
  per_step_inventory_aversion self = 0 ->
  terminal_inventory_aversion self = 0 ->
  0 < inventory_exponent self ->
  InventoryAdjustedPnL_calculate self current a next flag
  = PnL_calculate PnL_init current a next flag'.
Proof.
  intros Hper Hterm He.
  unfold InventoryAdjustedPnL_calculate, PnL_calculate.
  destruct (market_value current) as [mc| |]; cbn [bind]; try reflexivity.
  destruct next as [|n0 [|n1 [|n2 rest]]]; try reflexivity.
  cbn [market_value getitem nth_error bind].
  destruct (float_pow_pos_exponent (Rabs n2) (inventory_exponent self)
              (Rabs_pos _) He) as (p & Hp & _).
  rewrite Hp; cbn [bind].
  rewrite blend_select, Hper, Hterm.
  f_equal; destruct flag; ring.
Qed.

(** ** Construction *)

(** C8, as the code has it.  No constructor validates its arguments: for
    every configuration, negative aversions and non-positive exponents
    included, construction returns an instance whose fields are the values
    given, unchanged. *)
Theorem constructors_store_arguments_unchecked :
  (forall ra : R,
      exists self, TerminalExponentialUtility_init ra = Ret self
                   /\ risk_aversion self = ra)
  /\ (forall per_step terminal exponent size : R,
      exists self,
        InventoryAdjustedPnL_init per_step terminal exponent size = Ret self
        /\ per_step_inventory_aversion self = per_step
        /\ terminal_inventory_aversion self = terminal
        /\ inventory_exponent self = exponent
        /\ step_size self = size).
Proof.
  split.
  - intros ra; eexists; split; reflexivity.
  - intros per_step terminal exponent size; eexists; repeat split; reflexivity.
Qed.

(** ** The action *)

(** C9. No implementation of [calculate] reads the action: two calls that
    differ only in the action give the same outcome ([CJ_criterion] also for
    every [phi] and [terminal_penalty]). *)
Theorem calculate_ignores_action (current next : observation)
    (flag : bool) (a1 a2 : Action) :
  (forall self : PnL,
      calculate self current a1 next flag = calculate self current a2 next flag)
  /\ (forall self : CJ_criterion,
      calculate self current a1 next flag = calculate self current a2 next flag)
  /\ (forall (self : CJ_criterion) (phi terminal_penalty : R),
      CJ_criterion_calculate self current a1 next flag phi terminal_penalty
      = CJ_criterion_calculate self current a2 next flag phi terminal_penalty)
  /\ (forall self : TerminalExponentialUtility,
      calculate self current a1 next flag = calculate self current a2 next flag)
  /\ (forall self : InventoryAdjustedPnL,
      calculate self current a1 next flag = calculate self current a2 next flag).
Proof.
  unfold calculate, PnL_RewardFunction, CJ_criterion_RewardFunction,
    TerminalExponentialUtility_RewardFunction,
    InventoryAdjustedPnL_RewardFunction.
  split; [intros self; unfold PnL_calculate; reflexivity|].
  split; [intros self; unfold CJ_criterion_calculate; reflexivity|].
  split; [intros self phi tp; unfold CJ_criterion_calculate; reflexivity|].
  split; [intros self; unfold TerminalExponentialUtility_calculate;
          reflexivity|].
  intros self; unfold InventoryAdjustedPnL_calculate, PnL_calculate.
  reflexivity.
Qed.

End RewardProperties.

(** ** The transitions of the specification, evaluated *)

Example InventoryAdjustedPnL_default_is_default :
  InventoryAdjustedPnL_default = Ret default_InventoryAdjustedPnL.
Proof. reflexivity. Qed.

Example PnL_scenario :
  PnL_calculate PnL_init scenario_current scenario_action scenario_next false
  = Ret 101.
Proof. cbv [PnL_calculate market_value getitem nth_error bind
            scenario_current scenario_next]; f_equal; lra. Qed.

Example CJ_criterion_scenario :
  calculate CJ_criterion_init scenario_current scenario_action scenario_next
    false
  = Ret (10099 / 100).
Proof.
  cbv [calculate CJ_criterion_RewardFunction CJ_criterion_calculate
       market_value getitem nth_error bind scenario_current scenario_next
       CJ_default_phi CJ_default_terminal_penalty]; f_equal; lra.
Qed.

Example float_pow_zero_base : float_pow 0 2 = Ret 0.
Proof.
  unfold float_pow.
  destruct (Req_dec_T 2 0); [lra|].
  destruct (Rlt_dec 0 0); [lra|].
  destruct (Req_dec_T 0 0); [|lra].
  destruct (Rlt_dec 0 2); [reflexivity|lra].
Qed.

Example float_pow_zero_exponent : float_pow 0 0 = Ret 1.
Proof. unfold float_pow; destruct (Req_dec_T 0 0); [reflexivity|lra]. Qed.

Example float_pow_zero_base_negative_exponent : float_pow 0 (-1) = NotReal.
Proof.
  unfold float_pow.
  destruct (Req_dec_T (-1) 0); [lra|].
  destruct (Rlt_dec 0 0); [lra|].
  destruct (Req_dec_T 0 0); [|lra].
  destruct (Rlt_dec 0 (-1)); [lra|reflexivity].
Qed.

Example float_pow_square (x : R) : 0 < x -> float_pow x 2 = Ret (x * x).
Proof.
  intros Hx; unfold float_pow.
  destruct (Req_dec_T 2 0); [lra|].
  destruct (Rlt_dec 0 x); [|lra].
  f_equal; replace 2 with (INR 2) by (simpl; lra).
  rewrite Rpower_pow by assumption; simpl; ring.
Qed.

(** The terminal scenario of the specification: the default terminal
    aversion is zero, so an inventory of 5 leaves the reward at the PnL. *)
Example InventoryAdjustedPnL_scenario :
  InventoryAdjustedPnL_calculate default_InventoryAdjustedPnL
    scenario_current scenario_action [101; 0; 5; 1] true
  = PnL_calculate PnL_init scenario_current scenario_action [101; 0; 5; 1] true.
Proof.
  cbv [InventoryAdjustedPnL_calculate PnL_calculate market_value getitem
       nth_error bind scenario_current default_InventoryAdjustedPnL
       pnl_reward inventory_exponent terminal_inventory_aversion
       per_step_inventory_aversion step_size bool_to_R].
  rewrite Rabs_pos_eq by lra.
  rewrite float_pow_square by lra; cbn [bind]; f_equal; lra.
Qed.

(** ** The theorems at the transition of the specification *)

Lemma PnL_calculate_spec_witness :
  well_formed scenario_current /\ well_formed scenario_next
  /\ PnL_calculate PnL_init scenario_current scenario_action scenario_next
       false
     = Ret ((0 + 101 * 1) - (0 + 100 * 0)).
Proof.
  split; [reflexivity|]; split; [reflexivity|].
  apply (PnL_calculate_spec nat PnL_init scenario_current scenario_next
           scenario_action false eq_refl eq_refl).
Defined.

Lemma PnL_calculate_antisymmetric_witness :
  well_formed scenario_current /\ well_formed scenario_next
  /\ PnL_calculate PnL_init scenario_current scenario_action scenario_current
       false = Ret 0.
Proof.
  split; [reflexivity|]; split; [reflexivity|].
  apply (PnL_calculate_antisymmetric nat PnL_init scenario_current
           scenario_next scenario_action scenario_action false false
           eq_refl eq_refl).
Defined.

Lemma CJ_criterion_calculate_spec_witness :
  well_formed scenario_current /\ well_formed scenario_next
  /\ PnL_calculate PnL_init scenario_current scenario_action scenario_next
       false
     = Ret ((0 + 101 * 1) - (0 + 100 * 0))
  /\ CJ_criterion_calculate CJ_criterion_init scenario_current
       scenario_action scenario_next false (1 / 100) (1 / 100)
     = Ret ((0 + 101 * 1) - (0 + 100 * 0)
            - (1 - 0) * (1 / 100) * (1 - 0) ^ 2)
  /\ CJ_criterion_calculate CJ_criterion_init scenario_current
       scenario_action scenario_next true (1 / 100) (1 / 100)
     = Ret ((0 + 101 * 1) - (0 + 100 * 0)
            - (1 - 0) * (1 / 100) * (1 - 0) ^ 2
            - 1 / 100 * (1 - 0) ^ 2).
Proof.
  split; [reflexivity|]; split; [reflexivity|].
  apply (CJ_criterion_calculate_spec nat CJ_criterion_init scenario_current
           scenario_next scenario_action (1 / 100) (1 / 100)
           eq_refl eq_refl).
Defined.

Lemma TerminalExponentialUtility_calculate_spec_witness :
  TerminalExponentialUtility_init (1 / 10)
  = Ret {| risk_aversion := 1 / 10 |}
  /\ well_formed scenario_next
  /\ TerminalExponentialUtility_calculate {| risk_aversion := 1 / 10 |}
       scenario_current scenario_action scenario_next false = Ret 0
  /\ TerminalExponentialUtility_calculate {| risk_aversion := 1 / 10 |}
       scenario_current scenario_action scenario_next true
     = Ret (- exp (- (1 / 10) * (0 + 101 * 1))).
Proof.
  split; [reflexivity|]; split; [reflexivity|].
  apply (TerminalExponentialUtility_calculate_spec nat (1 / 10)
           {| risk_aversion := 1 / 10 |} scenario_current scenario_next
           scenario_action eq_refl eq_refl).
Defined.

Lemma one_tenth_nonneg : 0 <= risk_aversion {| risk_aversion := 1 / 10 |}.
Proof. simpl; lra. Defined.

Lemma one_tenth_pos : 0 < risk_aversion {| risk_aversion := 1 / 10 |}.
Proof. simpl; lra. Defined.

Lemma TerminalExponentialUtility_terminal_shape_witness :
  0 <= risk_aversion {| risk_aversion := 1 / 10 |}
  /\ (exists r,
        TerminalExponentialUtility_calculate {| risk_aversion := 1 / 10 |}
          scenario_current scenario_action scenario_next true = Ret r
        /\ r <= 0)
  /\ (forall M, exists W, forall next,
        well_formed next -> mark_to_market next < W ->
        exists r,
          TerminalExponentialUtility_calculate {| risk_aversion := 1 / 10 |}
            scenario_current scenario_action next true = Ret r
          /\ r < M).
Proof.
  split; [exact one_tenth_nonneg|].
  destruct (TerminalExponentialUtility_terminal_shape nat
              {| risk_aversion := 1 / 10 |} scenario_current
              scenario_action one_tenth_nonneg) as (Hneg & _ & Hlim).
  split.
  - apply Hneg; reflexivity.
  - apply (proj2 (Hlim one_tenth_pos)).
Defined.

Lemma default_exponent_positive :
  0 < inventory_exponent default_InventoryAdjustedPnL.
Proof. simpl; lra. Defined.

Lemma InventoryAdjustedPnL_calculate_spec_witness :
  well_formed scenario_current /\ well_formed scenario_next
  /\ 0 < inventory_exponent default_InventoryAdjustedPnL
  /\ PnL_calculate PnL_init scenario_current scenario_action scenario_next
       false
     = Ret ((0 + 101 * 1) - (0 + 100 * 0))
  /\ (field scenario_next 2 <> 0 ->
      InventoryAdjustedPnL_calculate default_InventoryAdjustedPnL
        scenario_current scenario_action scenario_next false
      = Ret ((0 + 101 * 1) - (0 + 100 * 0)
             - 1 / 200 * (1 / 100) * Rpower (Rabs 1) 2))
  /\ (field scenario_next 2 = 0 ->
      InventoryAdjustedPnL_calculate default_InventoryAdjustedPnL
        scenario_current scenario_action scenario_next false
      = Ret ((0 + 101 * 1) - (0 + 100 * 0) - 1 / 200 * (1 / 100) * 0)).
Proof.
  split; [reflexivity|]; split; [reflexivity|].
  split; [exact default_exponent_positive|].
  apply (InventoryAdjustedPnL_calculate_spec nat default_InventoryAdjustedPnL
           scenario_current scenario_next scenario_action false
           eq_refl eq_refl default_exponent_positive).
Defined.

Lemma InventoryAdjustedPnL_zero_aversion_witness :
  per_step_inventory_aversion zero_aversion_InventoryAdjustedPnL = 0
  /\ terminal_inventory_aversion zero_aversion_InventoryAdjustedPnL = 0
  /\ 0 < inventory_exponent zero_aversion_InventoryAdjustedPnL
  /\ InventoryAdjustedPnL_calculate zero_aversion_InventoryAdjustedPnL
       scenario_current scenario_action scenario_next true
     = PnL_calculate PnL_init scenario_current scenario_action scenario_next
         true.
Proof.
  split; [reflexivity|]; split; [reflexivity|].
  split; [exact default_exponent_positive|].
  apply (InventoryAdjustedPnL_zero_aversion nat
           zero_aversion_InventoryAdjustedPnL scenario_current scenario_next
           scenario_action true true eq_refl eq_refl
           default_exponent_positive).
Defined.

(** ** Where the code departs from the specification *)

(** With [risk_aversion = 0], a non-negative value, the terminal reward is
    [-1] whatever the wealth, so it does not tend to [0] as the wealth
    grows. *)
Lemma risk_neutral_reward_does_not_vanish :
  0 <= risk_aversion risk_neutral
  /\ (forall w : R,
        TerminalExponentialUtility_calculate risk_neutral scenario_current
          scenario_action [0; w; 0; 0] true = Ret (- 1))
  /\ ~ (forall eps, 0 < eps -> exists W, forall next,
          well_formed next -> W < mark_to_market next ->
          exists r,
            TerminalExponentialUtility_calculate risk_neutral
              scenario_current scenario_action next true = Ret r
            /\ Rabs r < eps).
Proof.
  assert (Hconst : forall w : R,
             TerminalExponentialUtility_calculate risk_neutral
               scenario_current scenario_action [0; w; 0; 0] true
             = Ret (- 1)).
  { intros w.
    cbv [TerminalExponentialUtility_calculate market_value getitem nth_error
         bind risk_neutral risk_aversion].
    replace (- 0 * (w + 0 * 0)) with 0 by ring.
    rewrite exp_0; reflexivity. }
  split; [simpl; lra|]; split; [exact Hconst|].
  intros Hlim.
  destruct (Hlim (1 / 2)) as [W HW]; [lra|].
  destruct (HW [0; W + 1; 0; 0] eq_refl) as (r & Hr & Habs).
  - cbv [mark_to_market cash stock_price inventory field nth]; lra.
  - rewrite Hconst in Hr; injection Hr as <-.
    unfold Rabs in Habs; destruct (Rcase_abs (- 1)); lra.
Qed.

(** Negative aversions and a zero exponent are accepted: construction
    returns the instance holding them and raises nothing. *)
Lemma invalid_configuration_is_accepted :
  -1 < 0
  /\ TerminalExponentialUtility_init (-1) = Ret {| risk_aversion := -1 |}
  /\ ~ (exists e, TerminalExponentialUtility_init (-1) = Raise e)
  /\ InventoryAdjustedPnL_init (-1) (-1) 0 (1 / 200)
     = Ret {| per_step_inventory_aversion := -1;
              terminal_inventory_aversion := -1;
              pnl_reward := PnL_init;
              inventory_exponent := 0;
              step_size := 1 / 200 |}
  /\ ~ (exists e, InventoryAdjustedPnL_init (-1) (-1) 0 (1 / 200) = Raise e).
Proof.
  split; [lra|]; split; [reflexivity|]; split; [|split; [reflexivity|]].
  - intros [e He]; discriminate He.
  - intros [e He]; discriminate He.
Qed.

(** * Error and edge behaviour, bounds and composition *)

Section FurtherProperties.

Variable Action : Type.

(** ** Which subscripts succeed *)

Lemma market_value_cases (o : observation) :
  market_value o
  = if (3 <=? length o)%nat then Ret (mark_to_market o)
    else Raise IndexError.
Proof. destruct o as [|p [|c [|q rest]]]; reflexivity. Qed.

Lemma getitem_inventory_cases (o : observation) :
  o.[2] = if (3 <=? length o)%nat then Ret (inventory o)
          else Raise IndexError.
Proof. destruct o as [|p [|c [|q rest]]]; reflexivity. Qed.

Lemma getitem_time_cases (o : observation) :
  o.[3] = if (4 <=? length o)%nat then Ret (elapsed_time o)
          else Raise IndexError.
Proof. destruct o as [|p [|c [|q [|t rest]]]]; reflexivity. Qed.

Lemma well_formed_leb3 (o : observation) :
  well_formed o -> (3 <=? length o)%nat = true.
Proof. unfold well_formed; intros ->; reflexivity. Qed.

Lemma well_formed_leb4 (o : observation) :
  well_formed o -> (4 <=? length o)%nat = true.
Proof. unfold well_formed; intros ->; reflexivity. Qed.

(** X1.  [PnL.calculate] reads the first three fields only: it returns the
    mark-to-market difference as soon as both observations have three fields
    (the time may be missing, further fields are ignored) and raises
    [IndexError] otherwise. *)
Theorem PnL_calculate_cases (self : PnL) (current next : observation)
    (a : Action) (flag : bool) :
  PnL_calculate self current a next flag
  = if ((3 <=? length current)%nat && (3 <=? length next)%nat)%bool
    then Ret (mark_to_market next - mark_to_market current)
    else Raise IndexError.
Proof.
  unfold PnL_calculate; rewrite !market_value_cases.
  destruct (3 <=? length current)%nat, (3 <=? length next)%nat; reflexivity.
Qed.

(** X2.  [CJ_criterion.calculate] needs the time as well: it raises [IndexError]
    unless both observations have four fields, and then returns the penalised
    PnL.  An observation of three fields, which [PnL.calculate] accepts, is
    refused here. *)
Theorem CJ_criterion_calculate_cases (self : CJ_criterion)
    (current next : observation) (a : Action) (flag : bool)
    (phi terminal_penalty : R) :
  CJ_criterion_calculate self current a next flag phi terminal_penalty
  = if ((4 <=? length current)%nat && (4 <=? length next)%nat)%bool
    then
      let running :=
        mark_to_market next - mark_to_market current
        - (elapsed_time next - elapsed_time current) * phi
          * (inventory next - inventory current) ^ 2 in
      Ret (if flag
           then running
                - terminal_penalty * (inventory next - inventory current) ^ 2
           else running)
    else Raise IndexError.
Proof.
  destruct current as [|p [|c [|q [|t rest]]]];
    destruct next as [|p' [|c' [|q' [|t' rest']]]];
    destruct flag; reflexivity.
Qed.

(** X3.  [TerminalExponentialUtility.calculate] subscripts nothing on a
    non-terminal step: it returns [0] even on empty observations.  On a
    terminal step it raises [IndexError] exactly when the next observation
    has fewer than three fields, whatever the current one is. *)
Theorem TerminalExponentialUtility_calculate_cases
    (self : TerminalExponentialUtility) (current next : observation)
    (a : Action) :
  TerminalExponentialUtility_calculate self current a next false = Ret 0
  /\ TerminalExponentialUtility_calculate self current a next true
     = if (3 <=? length next)%nat
       then Ret (- exp (- risk_aversion self * mark_to_market next))
       else Raise IndexError.
Proof.
  split; [reflexivity|].
  unfold TerminalExponentialUtility_calculate; rewrite market_value_cases.
  destruct (3 <=? length next)%nat; reflexivity.
Qed.

(** ** Powers of an absolute value *)

Lemma float_pow_zero_base_neg (y : R) : y < 0 -> float_pow 0 y = NotReal.
Proof.
  intros Hy; unfold float_pow.
  destruct (Req_dec_T y 0); [lra|].
  destruct (Rlt_dec 0 0); [lra|].
  destruct (Req_dec_T 0 0); [|lra].
  destruct (Rlt_dec 0 y); [lra|reflexivity].
Qed.

Lemma float_pow_pos_base (x y : R) :
  0 < x -> exists p, float_pow x y = Ret p /\ 0 < p.
Proof.
  intros Hx; unfold float_pow.
  destruct (Req_dec_T y 0); [exists 1; split; [reflexivity|lra]|].
  destruct (Rlt_dec 0 x); [|lra].
  exists (Rpower x y); split; [reflexivity|apply exp_pos].
Qed.

Lemma float_pow_abs_two (q : R) : float_pow (Rabs q) 2 = Ret (q ^ 2).
Proof.
  destruct (Req_dec q 0) as [->|Hq].
  - rewrite Rabs_R0, float_pow_zero_pos by lra; f_equal; ring.
  - pose proof (Rabs_pos_lt q Hq) as Hpos.
    unfold float_pow.
    destruct (Req_dec_T 2 0); [lra|].
    destruct (Rlt_dec 0 (Rabs q)); [|lra].
    f_equal; replace 2 with (INR 2) by (simpl; lra).
    rewrite Rpower_pow by assumption; apply pow2_abs.
Qed.

(** The value of [InventoryAdjustedPnL.calculate] once the power is known. *)
Lemma InventoryAdjustedPnL_calculate_wf (self : InventoryAdjustedPnL)
    (current next : observation) (a : Action) (flag : bool) (p : R) :
  well_formed current -> well_formed next ->
  float_pow (Rabs (inventory next)) (inventory_exponent self) = Ret p ->
  InventoryAdjustedPnL_calculate self current a next flag
  = Ret (mark_to_market next - mark_to_market current
         - (if flag then terminal_inventory_aversion self
            else step_size self * per_step_inventory_aversion self) * p).
Proof.
  intros Hc Hn Hp; unfold InventoryAdjustedPnL_calculate, PnL_calculate.
  rewrite !market_value_cases, getitem_inventory_cases.
  rewrite (well_formed_leb3 _ Hc), (well_formed_leb3 _ Hn); cbn [andb bind].
  rewrite Hp; cbn [bind]; rewrite blend_select; reflexivity.
Qed.

(** X4.  With a positive exponent [InventoryAdjustedPnL.calculate] returns a real
    number as soon as both observations have three fields and raises
    [IndexError] otherwise; the power never spoils the result. *)
Theorem InventoryAdjustedPnL_calculate_cases (self : InventoryAdjustedPnL)
    (current next : observation) (a : Action) (flag : bool) :
  0 < inventory_exponent self ->
  if ((3 <=? length current)%nat && (3 <=? length next)%nat)%bool
  then exists r, InventoryAdjustedPnL_calculate self current a next flag = Ret r
  else InventoryAdjustedPnL_calculate self current a next flag
       = Raise IndexError.
Proof.
  intros He; unfold InventoryAdjustedPnL_calculate, PnL_calculate.
  rewrite !market_value_cases, getitem_inventory_cases.
  destruct (3 <=? length current)%nat, (3 <=? length next)%nat;
    cbn [andb bind]; try reflexivity.
  destruct (float_pow_pos_exponent (Rabs (inventory next))
              (inventory_exponent self) (Rabs_pos _) He) as (p & Hp & _).
  rewrite Hp; cbn [bind]; eexists; reflexivity.
Qed.

(** X5.  A negative exponent, which the constructor accepts, meets a flat next
    inventory in [0 ** negative]: the reward is then no finite number. *)
Theorem InventoryAdjustedPnL_negative_exponent_flat
    (self : InventoryAdjustedPnL) (current next : observation) (a : Action)
    (flag : bool) :
  well_formed current -> well_formed next ->
  inventory next = 0 -> inventory_exponent self < 0 ->
  InventoryAdjustedPnL_calculate self current a next flag = NotReal.
Proof.
  intros Hc Hn Hq He; unfold InventoryAdjustedPnL_calculate, PnL_calculate.
  rewrite !market_value_cases, getitem_inventory_cases.
  rewrite (well_formed_leb3 _ Hc), (well_formed_leb3 _ Hn); cbn [andb bind].
  rewrite Hq, Rabs_R0, float_pow_zero_base_neg by assumption; reflexivity.
Qed.

(** ** CJ_criterion against PnL *)

Lemma CJ_criterion_calculate_wf (self : CJ_criterion)
    (current next : observation) (a : Action) (flag : bool)
    (phi terminal_penalty : R) :
  well_formed current -> well_formed next ->
  CJ_criterion_calculate self current a next flag phi terminal_penalty
  = Ret (mark_to_market next - mark_to_market current
         - (elapsed_time next - elapsed_time current) * phi
           * (inventory next - inventory current) ^ 2
         - bool_to_R flag * terminal_penalty
           * (inventory next - inventory current) ^ 2).
Proof.
  intros Hc Hn.
  apply well_formed_inv in Hc; destruct Hc as (p & c & q & t & ->).
  apply well_formed_inv in Hn; destruct Hn as (p' & c' & q' & t' & ->).
  destruct flag;
    cbv [CJ_criterion_calculate market_value getitem nth_error bind
         mark_to_market cash stock_price inventory elapsed_time field nth
         bool_to_R];
    f_equal; ring.
Qed.

(** X7.  With [phi = 0] and [terminal_penalty = 0], [CJ_criterion.calculate]
    is [PnL.calculate] on well-formed observations, on terminal and
    non-terminal steps alike. *)
Theorem CJ_criterion_zero_penalties (self : CJ_criterion)
    (current next : observation) (a : Action) (flag flag' : bool) :
  well_formed current -> well_formed next ->
  CJ_criterion_calculate self current a next flag 0 0
  = PnL_calculate PnL_init current a next flag'.
Proof.
  intros Hc Hn.
  rewrite CJ_criterion_calculate_wf, PnL_calculate_wf by assumption.
  f_equal; ring.
Qed.

(** X8.  When the inventory does not change over the step, neither penalty
    applies: [CJ_criterion.calculate] is [PnL.calculate] for every [phi],
    every [terminal_penalty] and both values of the flag. *)
Theorem CJ_criterion_unchanged_inventory (self : CJ_criterion)
    (current next : observation) (a : Action) (flag flag' : bool)
    (phi terminal_penalty : R) :
  well_formed current -> well_formed next ->
  inventory next = inventory current ->
  CJ_criterion_calculate self current a next flag phi terminal_penalty
  = PnL_calculate PnL_init current a next flag'.
Proof.
  intros Hc Hn Hq.
  rewrite CJ_criterion_calculate_wf, PnL_calculate_wf by assumption.
  rewrite Hq; f_equal; ring.
Qed.

(** X9.  With non-negative [phi] and [terminal_penalty] and a time that does not
    run backwards, the penalties only lower the reward: the terminal reward
    is at most the non-terminal one, which is at most the PnL. *)
Theorem CJ_criterion_at_most_PnL (self : CJ_criterion)
    (current next : observation) (a : Action) (phi terminal_penalty : R) :
  well_formed current -> well_formed next ->
  0 <= phi -> 0 <= terminal_penalty ->
  elapsed_time current <= elapsed_time next ->
  exists pnl running terminal,
    PnL_calculate PnL_init current a next false = Ret pnl
    /\ CJ_criterion_calculate self current a next false phi terminal_penalty
       = Ret running
    /\ CJ_criterion_calculate self current a next true phi terminal_penalty
       = Ret terminal
    /\ terminal <= running /\ running <= pnl.
Proof.
  intros Hc Hn Hphi Htp Ht.
  rewrite !CJ_criterion_calculate_wf, PnL_calculate_wf by assumption.
  do 3 eexists; repeat split; unfold bool_to_R.
  - pose proof (pow2_ge_0 (inventory next - inventory current)); nra.
  - pose proof (pow2_ge_0 (inventory next - inventory current)) as Hsq.
    assert (0 <= (elapsed_time next - elapsed_time current) * phi) by nra.
    nra.
Qed.

(** ** InventoryAdjustedPnL against PnL *)

(** X10.  With non-negative aversions and step size and a positive exponent the
    inventory term only lowers the reward: it is at most the PnL. *)
Theorem InventoryAdjustedPnL_at_most_PnL (self : InventoryAdjustedPnL)
    (current next : observation) (a : Action) (flag : bool) :
  well_formed current -> well_formed next ->
  0 <= per_step_inventory_aversion self ->
  0 <= terminal_inventory_aversion self ->
  0 <= step_size self ->
  0 < inventory_exponent self ->
  exists pnl r,
    PnL_calculate (pnl_reward self) current a next false = Ret pnl
    /\ InventoryAdjustedPnL_calculate self current a next flag = Ret r
    /\ r <= pnl.
Proof.
  intros Hc Hn Hper Hterm Hsize He.
  destruct (float_pow_pos_exponent (Rabs (inventory next))
              (inventory_exponent self) (Rabs_pos _) He) as (p & Hp & Hp0).
  rewrite (InventoryAdjustedPnL_calculate_wf self current next a flag p)
    by assumption.
  rewrite PnL_calculate_wf by assumption.
  do 2 eexists; repeat split.
  assert (Hstep : 0 <= step_size self * per_step_inventory_aversion self)
    by nra.
  destruct flag; nra.
Qed.

(** X11.  A flat next inventory costs nothing: with a positive exponent the reward
    is the PnL, whatever the aversions and the flag. *)
Theorem InventoryAdjustedPnL_flat_inventory (self : InventoryAdjustedPnL)
    (current next : observation) (a : Action) (flag flag' : bool) :
  well_formed current -> well_formed next ->
  inventory next = 0 -> 0 < inventory_exponent self ->
  InventoryAdjustedPnL_calculate self current a next flag
  = PnL_calculate PnL_init current a next flag'.
Proof.
  intros Hc Hn Hq He.
  rewrite (InventoryAdjustedPnL_calculate_wf self current next a flag 0),
    PnL_calculate_wf; try assumption.
  - f_equal; ring.
  - rewrite Hq, Rabs_R0; apply float_pow_zero_pos; assumption.
Qed.

(** X12.  On a terminal step the per-step aversion is switched off, not added:
    when [terminal_inventory_aversion] is zero (its default) the terminal
    reward is the PnL, whatever [per_step_inventory_aversion], the step size
    and the inventory held. *)
Theorem InventoryAdjustedPnL_terminal_without_terminal_aversion
    (self : InventoryAdjustedPnL) (current next : observation) (a : Action)
    (flag' : bool) :
  terminal_inventory_aversion self = 0 ->
  0 < inventory_exponent self ->
  InventoryAdjustedPnL_calculate self current a next true
  = PnL_calculate PnL_init current a next flag'.
Proof.
  intros Hterm He.
  unfold InventoryAdjustedPnL_calculate, PnL_calculate.
  rewrite !market_value_cases, getitem_inventory_cases.
  destruct (3 <=? length current)%nat, (3 <=? length next)%nat;
    cbn [bind]; try reflexivity.
  destruct (float_pow_pos_exponent (Rabs (inventory next))
              (inventory_exponent self) (Rabs_pos _) He) as (p & Hp & _).
  rewrite Hp; cbn [bind]; rewrite blend_select, Hterm; f_equal; ring.
Qed.

(** X13.  With [inventory_exponent = 2] (its default) the inventory term is the
    square of the next inventory, a flat inventory included. *)
Theorem InventoryAdjustedPnL_quadratic (self : InventoryAdjustedPnL)
    (current next : observation) (a : Action) (flag : bool) :
  well_formed current -> well_formed next ->
  inventory_exponent self = 2 ->
  InventoryAdjustedPnL_calculate self current a next flag
  = Ret (mark_to_market next - mark_to_market current
         - (if flag then terminal_inventory_aversion self
            else step_size self * per_step_inventory_aversion self)
           * inventory next ^ 2).
Proof.
  intros Hc Hn He.
  apply InventoryAdjustedPnL_calculate_wf; try assumption.
  rewrite He; apply float_pow_abs_two.
Qed.

(** ** TerminalExponentialUtility: the level -1 *)

(** X17.  The level [-1] separates gains from losses: for a non-negative
    [risk_aversion] the terminal reward is at least [-1] when the terminal
    wealth is non-negative and at most [-1] when it is non-positive; at zero
    wealth it is [-1]. *)
Theorem TerminalExponentialUtility_level_minus_one
    (self : TerminalExponentialUtility) (current next : observation)
    (a : Action) :
  0 <= risk_aversion self ->
  well_formed next ->
  exists r,
    TerminalExponentialUtility_calculate self current a next true = Ret r
    /\ (0 <= mark_to_market next -> -1 <= r)
    /\ (mark_to_market next <= 0 -> r <= -1).
Proof.
  intros Hra Hn.
  rewrite TerminalExponentialUtility_terminal_wf by assumption.
  eexists; split; [reflexivity|].
  set (w := mark_to_market next).
  split; intros Hw.
  - assert (H : exp (- risk_aversion self * w) <= exp 0)
      by (apply exp_monotone; nra).
    rewrite exp_0 in H; lra.
  - assert (H : exp 0 <= exp (- risk_aversion self * w))
      by (apply exp_monotone; nra).
    rewrite exp_0 in H; lra.
Qed.

(** X15.  Holding costs: on a non-terminal step between two identical
    observations, where the PnL is zero, a non-zero inventory still earns a
    strictly negative reward once the step size and the per-step aversion
    are positive. *)
Theorem InventoryAdjustedPnL_holding_cost (self : InventoryAdjustedPnL)
    (o : observation) (a : Action) :
  well_formed o -> inventory o <> 0 ->
  0 < per_step_inventory_aversion self -> 0 < step_size self ->
  exists r,
    InventoryAdjustedPnL_calculate self o a o false = Ret r /\ r < 0.
Proof.
  intros Ho Hq Hper Hsize.
  destruct (float_pow_pos_base (Rabs (inventory o)) (inventory_exponent self)
              (Rabs_pos_lt _ Hq)) as (p & Hp & Hp0).
  rewrite (InventoryAdjustedPnL_calculate_wf self o o a false p)
    by assumption.
  eexists; split; [reflexivity|].
  assert (Hc : 0 < step_size self * per_step_inventory_aversion self) by nra.
  nra.
Qed.

End FurtherProperties.

(** ** The further properties at concrete transitions *)

Lemma InventoryAdjustedPnL_calculate_cases_witness :
  0 < inventory_exponent default_InventoryAdjustedPnL
  /\ (exists r,
        InventoryAdjustedPnL_calculate default_InventoryAdjustedPnL
          scenario_current scenario_action scenario_next false = Ret r)
  /\ InventoryAdjustedPnL_calculate default_InventoryAdjustedPnL
       [100; 0] scenario_action scenario_next false = Raise IndexError.
Proof.
  split; [exact default_exponent_positive|]; split.
  - apply (InventoryAdjustedPnL_calculate_cases nat
             default_InventoryAdjustedPnL scenario_current scenario_next
             scenario_action false default_exponent_positive).
  - apply (InventoryAdjustedPnL_calculate_cases nat
             default_InventoryAdjustedPnL [100; 0] scenario_next
             scenario_action false default_exponent_positive).
Defined.

Lemma negative_exponent_is_negative :
  inventory_exponent negative_exponent_InventoryAdjustedPnL < 0.
Proof. simpl; lra. Defined.

Lemma InventoryAdjustedPnL_negative_exponent_flat_witness :
  well_formed scenario_next /\ well_formed scenario_last
  /\ inventory scenario_last = 0
  /\ inventory_exponent negative_exponent_InventoryAdjustedPnL < 0
  /\ InventoryAdjustedPnL_calculate negative_exponent_InventoryAdjustedPnL
       scenario_next scenario_action scenario_last false = NotReal.
Proof.
  split; [reflexivity|]; split; [reflexivity|]; split; [reflexivity|].
  split; [exact negative_exponent_is_negative|].
  apply (InventoryAdjustedPnL_negative_exponent_flat nat
           negative_exponent_InventoryAdjustedPnL scenario_next scenario_last
           scenario_action false eq_refl eq_refl eq_refl
           negative_exponent_is_negative).
Defined.

Lemma CJ_criterion_zero_penalties_witness :
  well_formed scenario_current /\ well_formed scenario_next
  /\ CJ_criterion_calculate CJ_criterion_init scenario_current
       scenario_action scenario_next true 0 0
     = PnL_calculate PnL_init scenario_current scenario_action scenario_next
         true.
Proof.
  split; [reflexivity|]; split; [reflexivity|].
  apply (CJ_criterion_zero_penalties nat CJ_criterion_init scenario_current
           scenario_next scenario_action true true eq_refl eq_refl).
Defined.

Lemma CJ_criterion_unchanged_inventory_witness :
  well_formed scenario_current /\ well_formed scenario_last
  /\ inventory scenario_last = inventory scenario_current
  /\ CJ_criterion_calculate CJ_criterion_init scenario_current
       scenario_action scenario_last true (1 / 100) (1 / 100)
     = PnL_calculate PnL_init scenario_current scenario_action scenario_last
         true.
Proof.
  split; [reflexivity|]; split; [reflexivity|]; split; [reflexivity|].
  apply (CJ_criterion_unchanged_inventory nat CJ_criterion_init
           scenario_current scenario_last scenario_action true true
           (1 / 100) (1 / 100) eq_refl eq_refl eq_refl).
Defined.

Lemma default_penalty_nonneg : 0 <= 1 / 100.
Proof. lra. Defined.

Lemma scenario_time_advances :
  elapsed_time scenario_current <= elapsed_time scenario_next.
Proof. cbv [elapsed_time field nth scenario_current scenario_next]; lra. Defined.

Lemma CJ_criterion_at_most_PnL_witness :
  well_formed scenario_current /\ well_formed scenario_next
  /\ 0 <= 1 / 100
  /\ elapsed_time scenario_current <= elapsed_time scenario_next
  /\ exists pnl running terminal,
       PnL_calculate PnL_init scenario_current scenario_action scenario_next
         false = Ret pnl
       /\ CJ_criterion_calculate CJ_criterion_init scenario_current
            scenario_action scenario_next false (1 / 100) (1 / 100)
          = Ret running
       /\ CJ_criterion_calculate CJ_criterion_init scenario_current
            scenario_action scenario_next true (1 / 100) (1 / 100)
          = Ret terminal
       /\ terminal <= running /\ running <= pnl.
Proof.
  split; [reflexivity|]; split; [reflexivity|].
  split; [exact default_penalty_nonneg|].
  split; [exact scenario_time_advances|].
  apply (CJ_criterion_at_most_PnL nat CJ_criterion_init scenario_current
           scenario_next scenario_action (1 / 100) (1 / 100) eq_refl eq_refl
           default_penalty_nonneg default_penalty_nonneg
           scenario_time_advances).
Defined.

Lemma default_per_step_nonneg :
  0 <= per_step_inventory_aversion default_InventoryAdjustedPnL.
Proof. simpl; lra. Defined.

Lemma default_terminal_nonneg :
  0 <= terminal_inventory_aversion default_InventoryAdjustedPnL.
Proof. simpl; lra. Defined.

Lemma default_step_size_nonneg :
  0 <= step_size default_InventoryAdjustedPnL.
Proof. simpl; lra. Defined.

Lemma InventoryAdjustedPnL_at_most_PnL_witness :
  well_formed scenario_current /\ well_formed scenario_next
  /\ 0 <= per_step_inventory_aversion default_InventoryAdjustedPnL
  /\ 0 <= terminal_inventory_aversion default_InventoryAdjustedPnL
  /\ 0 <= step_size default_InventoryAdjustedPnL
  /\ 0 < inventory_exponent default_InventoryAdjustedPnL
  /\ exists pnl r,
       PnL_calculate PnL_init scenario_current scenario_action scenario_next
         false = Ret pnl
       /\ InventoryAdjustedPnL_calculate default_InventoryAdjustedPnL
            scenario_current scenario_action scenario_next false = Ret r
       /\ r <= pnl.
Proof.
  split; [reflexivity|]; split; [reflexivity|].
  split; [exact default_per_step_nonneg|].
  split; [exact default_terminal_nonneg|].
  split; [exact default_step_size_nonneg|].
  split; [exact default_exponent_positive|].
  apply (InventoryAdjustedPnL_at_most_PnL nat default_InventoryAdjustedPnL
           scenario_current scenario_next scenario_action false
           eq_refl eq_refl default_per_step_nonneg default_terminal_nonneg
           default_step_size_nonneg default_exponent_positive).
Defined.

Lemma InventoryAdjustedPnL_flat_inventory_witness :
  well_formed scenario_next /\ well_formed scenario_last
  /\ inventory scenario_last = 0
  /\ 0 < inventory_exponent default_InventoryAdjustedPnL
  /\ InventoryAdjustedPnL_calculate default_InventoryAdjustedPnL
       scenario_next scenario_action scenario_last false
     = PnL_calculate PnL_init scenario_next scenario_action scenario_last
         false.
Proof.
  split; [reflexivity|]; split; [reflexivity|]; split; [reflexivity|].
  split; [exact default_exponent_positive|].
  apply (InventoryAdjustedPnL_flat_inventory nat default_InventoryAdjustedPnL
           scenario_next scenario_last scenario_action false false
           eq_refl eq_refl eq_refl default_exponent_positive).
Defined.

Lemma InventoryAdjustedPnL_terminal_without_terminal_aversion_witness :
  terminal_inventory_aversion default_InventoryAdjustedPnL = 0
  /\ 0 < inventory_exponent default_InventoryAdjustedPnL
  /\ InventoryAdjustedPnL_calculate default_InventoryAdjustedPnL
       scenario_current scenario_action scenario_next true
     = PnL_calculate PnL_init scenario_current scenario_action scenario_next
         true.
Proof.
  split; [reflexivity|]; split; [exact default_exponent_positive|].
  apply (InventoryAdjustedPnL_terminal_without_terminal_aversion nat
           default_InventoryAdjustedPnL scenario_current scenario_next
           scenario_action true eq_refl default_exponent_positive).
Defined.

Lemma InventoryAdjustedPnL_quadratic_witness :
  well_formed scenario_current /\ well_formed scenario_next
  /\ inventory_exponent default_InventoryAdjustedPnL = 2
  /\ InventoryAdjustedPnL_calculate default_InventoryAdjustedPnL
       scenario_current scenario_action scenario_next false
     = Ret (0 + 101 * 1 - (0 + 100 * 0) - 1 / 200 * (1 / 100) * 1 ^ 2).
Proof.
  split; [reflexivity|]; split; [reflexivity|]; split; [reflexivity|].
  apply (InventoryAdjustedPnL_quadratic nat default_InventoryAdjustedPnL
           scenario_current scenario_next scenario_action false
           eq_refl eq_refl eq_refl).
Defined.

Lemma default_risk_aversion_nonneg :
  0 <= risk_aversion default_TerminalExponentialUtility.
Proof.
  cbv [risk_aversion default_TerminalExponentialUtility
       TerminalExponentialUtility_default_risk_aversion]; lra.
Defined.

Lemma TerminalExponentialUtility_level_minus_one_witness :
  0 <= risk_aversion default_TerminalExponentialUtility
  /\ well_formed scenario_next
  /\ exists r,
       TerminalExponentialUtility_calculate
         default_TerminalExponentialUtility scenario_current scenario_action
         scenario_next true = Ret r
       /\ (0 <= mark_to_market scenario_next -> -1 <= r)
       /\ (mark_to_market scenario_next <= 0 -> r <= -1).
Proof.
  split; [exact default_risk_aversion_nonneg|]; split; [reflexivity|].
  apply (TerminalExponentialUtility_level_minus_one nat
           default_TerminalExponentialUtility scenario_current scenario_next
           scenario_action default_risk_aversion_nonneg eq_refl).
Defined.

Lemma scenario_next_holds_inventory : inventory scenario_next <> 0.
Proof. cbv [inventory field nth scenario_next]; lra. Defined.

Lemma default_per_step_positive :
  0 < per_step_inventory_aversion default_InventoryAdjustedPnL.
Proof. simpl; lra. Defined.

Lemma default_step_size_positive :
  0 < step_size default_InventoryAdjustedPnL.
Proof. simpl; lra. Defined.

Lemma InventoryAdjustedPnL_holding_cost_witness :
  well_formed scenario_next /\ inventory scenario_next <> 0
  /\ 0 < per_step_inventory_aversion default_InventoryAdjustedPnL
  /\ 0 < step_size default_InventoryAdjustedPnL
  /\ exists r,
       InventoryAdjustedPnL_calculate default_InventoryAdjustedPnL
         scenario_next scenario_action scenario_next false = Ret r
       /\ r < 0.
Proof.
  split; [reflexivity|]; split; [exact scenario_next_holds_inventory|].
  split; [exact default_per_step_positive|].
  split; [exact default_step_size_positive|].
  apply (InventoryAdjustedPnL_holding_cost nat default_InventoryAdjustedPnL
           scenario_next scenario_action eq_refl
           scenario_next_holds_inventory default_per_step_positive
           default_step_size_positive).
Defined.
